(** * slimta.edge.wsgi: the HTTP edge of python-slimta

    A shallow embedding of [src/slimta/edge/wsgi.py] and the properties of
    its request pipeline: validation, envelope construction, queue handoff,
    translation of the delivery outcome into an HTTP status, the generic
    fault response and the unconditional termination of the reverse-DNS
    greenlet.

    Python 2 [str] values are byte strings; they are modelled as [string]
    (lists of 8-bit [ascii]).  The WSGI [environ] dict is modelled as a
    finite map for its string-valued entries together with typed slots for
    the two non-string entries the handler touches. *)

From Stdlib Require Import ZArith Ascii String List Bool Lia.
From stdpp Require Import base option list strings gmap.

Local Open Scope string_scope.
Local Open Scope Z_scope.

(** ** Characters and strings of the Python runtime *)

Module Py.

Definition chr (n : nat) : ascii := ascii_of_nat n.
Definition ord (c : ascii) : Z := Z.of_nat (nat_of_ascii c).

Definition dquote : ascii := chr 34.
Definition squote : ascii := chr 39.
Definition backslash : ascii := chr 92.
Definition newline : ascii := chr 10.

(** [len(s)] *)
Definition len (s : string) : Z := Z.of_nat (String.length s).

(** [c.isspace()] for a byte of a [str], which is also the class [\s] of
    an [re] pattern compiled without flags: space, \t, \n, \v, \f, \r. *)
Definition isspace (c : ascii) : bool :=
  let n := ord c in (n =? 32) || ((9 <=? n) && (n <=? 13)).

Definition isdigit (c : ascii) : bool :=
  let n := ord c in (48 <=? n) && (n <=? 57).

Definition upper_char (c : ascii) : ascii :=
  let n := ord c in
  if (97 <=? n) && (n <=? 122) then chr (Z.to_nat (n - 32)) else c.

(** [s.upper()] *)
Fixpoint upper (s : string) : string :=
  match s with
  | EmptyString => EmptyString
  | String c r => String (upper_char c) (upper r)
  end.

(** [s.replace(old, new)] for a one-character [old]. *)
Fixpoint replace_char (old : ascii) (new : string) (s : string) : string :=
  match s with
  | EmptyString => EmptyString
  | String c r =>
      if Ascii.eqb c old then new ++ replace_char old new r
      else String c (replace_char old new r)
  end.

(** [s.startswith(p)] *)
Definition startswith (s p : string) : bool := String.prefix p s.

Fixpoint contains_char (c : ascii) (s : string) : bool :=
  match s with
  | EmptyString => false
  | String d r => Ascii.eqb c d || contains_char c r
  end.

(** [sep.join(parts)] *)
Fixpoint join (sep : string) (parts : list string) : string :=
  match parts with
  | [] => ""
  | [p] => p
  | p :: ps => p ++ sep ++ join sep ps
  end.

Fixpoint lstrip (s : string) : string :=
  match s with
  | String c r => if isspace c then lstrip r else s
  | EmptyString => EmptyString
  end.

Definition rev_string (s : string) : string :=
  string_of_list_ascii (List.rev (list_ascii_of_string s)).

(** [s.strip()] *)
Definition strip (s : string) : string :=
  rev_string (lstrip (rev_string (lstrip s))).

(** *** Exceptions

    The instances of [Exception] that the pipeline meets.  What lies
    outside that hierarchy and ends the serving greenlet itself
    ([KeyboardInterrupt], [SystemExit], [GreenletExit]) is not modelled. *)

Inductive Exc : Type :=
| KeyError (key_repr : string)
| ValueError (msg : string)
| TypeError (msg : string)
| IndexError (msg : string)
| OtherError (name msg : string).

(** [str(exc)], what ['{0!s}'.format(exc)] prints. *)
Definition str (e : Exc) : string :=
  match e with
  | KeyError k => k
  | ValueError m | TypeError m | IndexError m => m
  | OtherError _ m => m
  end.

Definition hexdigit (n : Z) : ascii :=
  if n <? 10 then chr (Z.to_nat (48 + n)) else chr (Z.to_nat (87 + n)).

Fixpoint repr_body (quote : ascii) (s : string) : string :=
  match s with
  | EmptyString => EmptyString
  | String c r =>
      let n := ord c in
      let rest := repr_body quote r in
      if Ascii.eqb c quote || Ascii.eqb c backslash
      then String backslash (String c rest)
      else if n =? 9 then String backslash (String "t" rest)
      else if n =? 10 then String backslash (String "n" rest)
      else if n =? 13 then String backslash (String "r" rest)
      else if (n <? 32) || (127 <=? n)
      then String backslash
             (String "x" (String (hexdigit (Z.shiftr n 4))
                                 (String (hexdigit (Z.land n 15)) rest)))
      else String c rest
  end.

(** [repr(s)] of a byte string. *)
Definition repr (s : string) : string :=
  let quote :=
    if contains_char squote s && negb (contains_char dquote s)
    then dquote else squote in
  String quote (repr_body quote s ++ String quote EmptyString).

(** *** [int(s)] in base ten

    The decimal literals Python 2 accepts: whitespace around the text is
    dropped, one sign is allowed, whitespace may follow the sign, and at
    least one digit must come next, with nothing but digits after it;
    anything else is a [ValueError].  (The long-integer path taken when
    the value overflows a machine word is left out.) *)

Fixpoint digits_value (acc : Z) (s : string) : option Z :=
  match s with
  | EmptyString => Some acc
  | String c r =>
      if isdigit c then digits_value (10 * acc + (ord c - 48)) r else None
  end.

Definition unsigned_value (s : string) : option Z :=
  match lstrip s with
  | EmptyString => None
  | digits => digits_value 0 digits
  end.

Definition parse_int (s : string) : option Z :=
  match strip s with
  | EmptyString => None
  | String c r =>
      if Ascii.eqb c "-" then Z.opp <$> unsigned_value r
      else if Ascii.eqb c "+" then unsigned_value r
      else digits_value 0 (String c r)
  end.

Definition int (s : string) : Exc + Z :=
  match parse_int s with
  | Some n => inr n
  | None =>
      inl (ValueError ("invalid literal for int() with base 10: " ++ repr s))
  end.

End Py.

(** ** [base64.b64decode]

    Python 2's [b64decode(s)] calls [binascii.a2b_base64] and turns its
    [binascii.Error] into a [TypeError].  The decoder is lenient: bytes
    outside the alphabet are skipped, a pad in the third or fourth place of
    a quad ends the input, and left-over bits are an error. *)

Module Base64.

(** [table_a2b_base64]: the pad character is in the table, with value 0. *)
Definition table_a2b (c : ascii) : option Z :=
  let n := Py.ord c in
  if (65 <=? n) && (n <=? 90) then Some (n - 65)
  else if (97 <=? n) && (n <=? 122) then Some (n - 71)
  else if (48 <=? n) && (n <=? 57) then Some (n + 4)
  else if n =? 43 then Some 62
  else if n =? 47 then Some 63
  else if n =? 61 then Some 0
  else None.

Definition BASE64_PAD : ascii := "=".

(** [binascii_find_valid(s, slen, num)]: the [num+1]-th byte of [s] that
    is in the table, if any. *)
Fixpoint find_valid (s : string) (num : nat) : option ascii :=
  match s with
  | EmptyString => None
  | String c r =>
      if (Py.ord c <=? 127) && bool_decide (is_Some (table_a2b c)) then
        match num with
        | O => Some c
        | S k => find_valid r k
        end
      else find_valid r num
  end.

Record state : Type := State {
  leftbits : Z;
  leftchar : Z;
  quad_pos : Z;
  bin_data : list ascii   (* output so far, last byte first *)
}.

Definition init : state := State 0 0 0 [].

Definition shift_in (v : Z) (st : state) : state :=
  let quad_pos' := Z.land (quad_pos st + 1) 3 in
  let leftchar' := Z.lor (Z.shiftl (leftchar st) 6) v in
  let leftbits' := leftbits st + 6 in
  if 8 <=? leftbits' then
    let leftbits'' := leftbits' - 8 in
    let byte := Z.land (Z.shiftr leftchar' leftbits'') 255 in
    State leftbits''
          (Z.land leftchar' (Z.shiftl 1 leftbits'' - 1))
          quad_pos'
          (Py.chr (Z.to_nat byte) :: bin_data st)
  else State leftbits' leftchar' quad_pos' (bin_data st).

Fixpoint scan (s : string) (st : state) : state :=
  match s with
  | EmptyString => st
  | String c r =>
      let n := Py.ord c in
      if (127 <? n) || (n =? 13) || (n =? 10) || (n =? 32) then scan r st
      else if Ascii.eqb c BASE64_PAD then
        if (quad_pos st <? 2)
           || ((quad_pos st =? 2)
               && negb (bool_decide (find_valid s 1 = Some BASE64_PAD)))
        then scan r st
        else State 0 (leftchar st) (quad_pos st) (bin_data st)
      else
        match table_a2b c with
        | None => scan r st
        | Some v => scan r (shift_in v st)
        end
  end.

Definition a2b_base64 (s : string) : string + string :=
  let st := scan s init in
  if leftbits st =? 0
  then inr (string_of_list_ascii (List.rev (bin_data st)))
  else inl "Incorrect padding".

Definition b64decode (s : string) : Py.Exc + string :=
  match a2b_base64 s with
  | inr data => inr data
  | inl msg => inl (Py.TypeError msg)
  end.

End Base64.

(** ** [re]: the one compiled pattern of the module

    [split_pattern = re.compile(r'\s*[,;]\s*')].  A match can start at a
    position exactly when the run of whitespace found there is followed by a
    comma or a semicolon; it then extends over all the whitespace after the
    delimiter.  A match is never empty, so [split] cuts the subject at the
    leftmost matches, scanning from left to right. *)

Module Re.

Definition is_delim (c : ascii) : bool :=
  Ascii.eqb c "," || Ascii.eqb c ";".

(** Does [\s*[,;]] match at the head of [s]? *)
Fixpoint match_here (s : string) : bool :=
  match s with
  | EmptyString => false
  | String c r =>
      if is_delim c then true
      else if Py.isspace c then match_here r
      else false
  end.

Inductive mode : Type :=
| Scan    (* outside a match *)
| Lead    (* inside a match, before its delimiter *)
| Trail.  (* inside a match, after its delimiter *)

(** [piece] is the text since the end of the last match, last byte
    first. *)
Fixpoint split_from (m : mode) (piece : list ascii) (s : string)
  : list string :=
  let emit := string_of_list_ascii (List.rev piece) in
  match s with
  | EmptyString => [emit]
  | String c r =>
      let scan_here :=
        if match_here s then
          emit :: split_from (if is_delim c then Trail else Lead) [] r
        else split_from Scan (c :: piece) r in
      match m with
      | Scan => scan_here
      | Lead => split_from (if is_delim c then Trail else Lead) piece r
      | Trail => if Py.isspace c then split_from Trail piece r
                 else scan_here
      end
  end.

(** [split_pattern.split(s)] *)
Definition split (s : string) : list string := split_from Scan [] s.

End Re.

(** ** [wsgiref.headers] *)

Inductive HeaderValue : Type :=
| HStr (s : string)
| HInt (n : Z).

Definition Header : Type := string * HeaderValue.

Module Wsgiref.

(** [_formatparam(param, value, quote=1)] *)
Definition _formatparam (param : string) (value : option string) : string :=
  match value with
  | Some v =>
      if 0 <? Py.len v then
        let v1 := Py.replace_char Py.backslash
                    (String Py.backslash (String Py.backslash "")) v in
        let v2 := Py.replace_char Py.dquote
                    (String Py.backslash (String Py.dquote "")) v1 in
        param ++ "=" ++ String Py.dquote (v2 ++ String Py.dquote "")
      else param
  | None => param
  end.

(** [Headers(headers).add_header(_name, _value, **_params)]: the new list. *)
Definition add_header (headers : list Header) (_name : string)
    (_value : option string) (_params : list (string * option string))
  : list Header :=
  let value_part : list string :=
    match _value with Some v => [v] | None => [] end in
  let param_parts : list string :=
    List.map
      (fun '(k, v) =>
         let k' := Py.replace_char "_" "-" k in
         match v with
         | None => k'
         | Some _ => _formatparam k' v
         end) _params in
  List.app headers
    [(_name, HStr (Py.join "; " (List.app value_part param_parts)))].

End Wsgiref.

(** ** Data model *)

(** Modelled from the spec: [slimta.smtp.reply.Reply] is not part of the
    sources at hand.  A reply is a protocol reply code, a three-character
    string such as "250" or "550", with its message; [code] and [message]
    are the two attributes the edge reads. *)
Record Reply : Type := mkReply {
  code : string;
  message : string
}.

(** What the queue reports for a recipient: a queue identifier on success,
    or an instance of [QueueError] or of [RelayError], the latter carrying
    the reply of the remote server. *)
Inductive DeliveryOutcome : Type :=
| Accepted (queue_id : string)
| QueueFailure (reason : string)
| RelayFailure (reply : Reply).

Record ParsedMessage : Type := mkParsed {
  msg_headers : list (string * string);
  msg_body : string
}.

(** Modelled from the spec: [slimta.envelope.Envelope] is not part of the
    sources at hand.  It holds the sender, the ordered recipients, the
    [client] dict (a value may be [None]) and what [parse] made of the raw
    message. *)
Record Envelope : Type := mkEnvelope {
  sender : string;
  recipients : list string;
  client : gmap string (option string);
  parsed : option ParsedMessage
}.

(** [Envelope(sender, recipients)] *)
Definition Envelope_new (sender : string) (recipients : list string)
  : Envelope :=
  mkEnvelope sender recipients ∅ None.

(** [env.parse(data)] stores what the parser returned. *)
Definition set_parsed (m : ParsedMessage) (env : Envelope) : Envelope :=
  mkEnvelope (sender env) (recipients env) (client env) (Some m).

(** [env.client[key] = value] *)
Definition set_client (key : string) (value : option string) (env : Envelope)
  : Envelope :=
  mkEnvelope (sender env) (recipients env) (<[key := value]> (client env))
             (parsed env).

Definition Greenlet : Type := nat.

(** The [environ] dict.  [vars] holds the entries whose values are strings:
    the CGI variables, [wsgi.url_scheme] and [slimta.reverse_address]. *)
Record Environ : Type := mkEnviron {
  vars : gmap string string;
  wsgi_input : option string;            (* 'wsgi.input': the unread bytes *)
  ptr_lookup_thread : option Greenlet    (* 'slimta.ptr_lookup_thread' *)
}.

(** [environ.get(key, default)] *)
Definition environ_get (environ : Environ) (key dflt : string) : string :=
  default dflt (vars environ !! key).

Definition set_var (key value : string) (environ : Environ) : Environ :=
  mkEnviron (<[key := value]> (vars environ))
            (wsgi_input environ) (ptr_lookup_thread environ).

Definition set_ptr_lookup_thread (thread : Greenlet) (environ : Environ)
  : Environ :=
  mkEnviron (vars environ) (wsgi_input environ) (Some thread).

(** [class WSGIResponse(Exception)] *)
Record WSGIResponse : Type := mkWSGIResponse {
  status : string;
  headers : list Header;
  data : list string
}.

(** [WSGIResponse(status, headers=None, data=None)] *)
Definition WSGIResponse_new (status : string) (headers : option (list Header))
  : WSGIResponse :=
  mkWSGIResponse status (default [] headers) [].

(** What the handler calls or is told, in order. *)
Inductive Event : Type :=
| LogRequest
| Spawn (thread : Greenlet)
| StreamRead (size : Z)
| Parse (raw : string)
| Handoff (env : Envelope)
| StartResponse (status : string) (headers : list Header)
| LogResponse (status : string) (headers : list Header)
| LogException (exc : Py.Exc)
| Kill (thread : Greenlet) (block : bool).

(** ** Raising and state

    A call either returns or raises; what is raised is a [WSGIResponse] or
    any other exception.  The state is the [environ] dict, which the handler
    and the lookup greenlet both write, and the trace of events. *)

Inductive Raised : Type :=
| RaiseResponse (res : WSGIResponse)
| RaiseExc (exc : Py.Exc).

Definition Result (A : Type) : Type := Raised + A.

Record State : Type := mkState {
  st_environ : Environ;
  st_trace : list Event
}.

Definition M (A : Type) : Type := State -> Result A * State.

Definition ret {A} (a : A) : M A := fun st => (inr a, st).

Definition bind {A B} (m : M A) (k : A -> M B) : M B :=
  fun st =>
    match m st with
    | (inr a, st') => k a st'
    | (inl r, st') => (inl r, st')
    end.

Definition raise {A} (r : Raised) : M A := fun st => (inl r, st).

Definition lift {A} (r : Result A) : M A := fun st => (r, st).

Definition lift_exc {A} (r : Py.Exc + A) : M A :=
  fun st =>
    match r with
    | inr a => (inr a, st)
    | inl e => (inl (RaiseExc e), st)
    end.

Definition get_environ : M Environ := fun st => (inr (st_environ st), st).

Definition modify_environ (f : Environ -> Environ) : M unit :=
  fun st => (inr tt, mkState (f (st_environ st)) (st_trace st)).

Definition emit (e : Event) : M unit :=
  fun st => (inr tt, mkState (st_environ st) (st_trace st ++ [e])%list).

Declare Scope py_scope.
Delimit Scope py_scope with py.
Notation "x <- m ;; k" := (bind m (fun x => k))
  (at level 100, m at next level, right associativity) : py_scope.
Notation "m ;; k" := (bind m (fun _ => k))
  (at level 100, right associativity) : py_scope.

Local Open Scope py_scope.

(** [try: body / except ... : handler / finally: cleanup] *)
Definition try_except_finally {A} (body : M A) (handler : Raised -> M A)
    (cleanup : M unit) : M A :=
  fun st =>
    let '(r, st1) :=
      match body st with
      | (inl raised, st') => handler raised st'
      | (inr a, st') => (inr a, st')
      end in
    match cleanup st1 with
    | (inr _, st2) => (r, st2)
    | (inl raised, st2) => (inl raised, st2)
    end.

(** ** The module's helpers *)

Definition _header_name_to_cgi (name : string) : string :=
  "HTTP_" ++ Py.replace_char "-" "_" (Py.upper name).

Definition _build_http_response (smtp_reply : Reply) : WSGIResponse :=
  let code := code smtp_reply in
  let headers :=
    Wsgiref.add_header [] "X-Smtp-Reply" (Some code)
                       [("message", Some (message smtp_reply))] in
  if Py.startswith code "2" then
    WSGIResponse_new "200 OK" (Some headers)
  else if Py.startswith code "4" then
    WSGIResponse_new "503 Service Unavailable" (Some headers)
  else if String.eqb code "535" then
    WSGIResponse_new "401 Unauthorized" (Some headers)
  else
    WSGIResponse_new "500 Internal Server Error" (Some headers).

(** ** [class WsgiEdge(Edge)] *)

(** The [uri_pattern] argument: [None], a pattern string, or a compiled
    [RegexObject]; each of the last two is given by its pattern text. *)
Inductive UriPattern : Type :=
| PatternNone
| PatternStr (src : string)
| PatternObj (src : string).

(** Truth value of [self.uri_pattern]: [None] and the empty string are
    false. *)
Definition pattern_truthy (p : UriPattern) : bool :=
  match p with
  | PatternNone => false
  | PatternStr src => negb (String.eqb src "")
  | PatternObj _ => true
  end.

Definition pattern_src (p : UriPattern) : string :=
  match p with
  | PatternNone => ""
  | PatternStr src | PatternObj src => src
  end.

(** Modelled from the spec: [Edge.handoff] lives in [slimta/edge/__init__.py],
    which is not part of the sources at hand.  It is a blocking call that
    hands the envelope to the queue and returns an ordered sequence of
    (recipient, outcome) pairs; like any call it may raise instead. *)
Record WsgiEdge : Type := mkWsgiEdge {
  handoff : Envelope -> Py.Exc + list (string * DeliveryOutcome);
  uri_pattern : UriPattern;
  sender_header : string;
  rcpt_header : string;
  ehlo_header : string
}.

(** [WsgiEdge.__init__] *)
Definition WsgiEdge_init
    (queue_handoff : Envelope -> Py.Exc + list (string * DeliveryOutcome))
    (uri_pattern : UriPattern) (sender_header rcpt_header ehlo_header : string)
  : WsgiEdge :=
  mkWsgiEdge queue_handoff uri_pattern
             (_header_name_to_cgi sender_header)
             (_header_name_to_cgi rcpt_header)
             (_header_name_to_cgi ehlo_header).

Definition default_sender_header : string := "X-Envelope-Sender".
Definition default_rcpt_header : string := "X-Envelope-Recipient".
Definition default_ehlo_header : string := "X-Ehlo".

(** [f.read(size)] on a file-like object holding [input]: at most [size]
    bytes, everything when [size] is negative. *)
Definition file_read (input : string) (size : Z) : string :=
  if size <? 0 then input else String.substring 0 (Z.to_nat size) input.

Definition file_rest (input : string) (size : Z) : string :=
  if size <? 0 then ""
  else String.substring (Z.to_nat size) (String.length input) input.

(** [int(environ.get('CONTENT_LENGTH', 0))] *)
Definition content_length (environ : Environ) : Py.Exc + Z :=
  match vars environ !! "CONTENT_LENGTH" with
  | None => inr 0
  | Some text => Py.int text
  end.

(** [[b64decode(rcpt_b64) for rcpt_b64 in rcpts_split]]: the first segment
    that fails to decode raises. *)
Fixpoint decode_all (segments : list string) : Py.Exc + list string :=
  match segments with
  | [] => inr []
  | seg :: rest =>
      match Base64.b64decode seg with
      | inl e => inl e
      | inr rcpt =>
          match decode_all rest with
          | inl e => inl e
          | inr rcpts => inr (rcpt :: rcpts)
          end
      end
  end.

(** The collaborators of the edge, outside this module. *)
Record World : Type := mkWorld {
  (** [re.match(pattern, path)] is not [None]. *)
  re_match : string -> string -> bool;
  (** [env.parse(data)]: the external message parser, which may raise. *)
  envelope_parse : string -> Py.Exc + ParsedMessage;
  (** The greenlet [gevent.spawn] returns. *)
  spawned : Greenlet;
  (** [resolver.query(ptraddr, 'PTR')] for a client address; [None] stands
      for a lookup that raises. *)
  resolver_query : string -> option (list string);
  (** Greenlets are cooperative: the lookup runs only while the handler is
      blocked.  [lookup_finishes] tells whether it has run to its end by the
      time the request body has been read. *)
  lookup_finishes : bool
}.

Section Handler.

Variable world : World.
Variable self : WsgiEdge.

Definition _validate_request (environ : Environ) : Result unit :=
  if pattern_truthy (uri_pattern self)
     && negb (re_match world (pattern_src (uri_pattern self))
                       (environ_get environ "PATH_INFO" ""))
  then inl (RaiseResponse (WSGIResponse_new "404 Not Found" None))
  else
    match vars environ !! "REQUEST_METHOD" with
    | None => inl (RaiseExc (Py.KeyError (Py.repr "REQUEST_METHOD")))
    | Some m =>
        let method := Py.upper m in
        if negb (String.eqb method "POST") then
          let headers := [("Allow", HStr "POST")] in
          inl (RaiseResponse
                 (WSGIResponse_new "405 Method Not Allowed" (Some headers)))
        else
          let ctype := environ_get environ "CONTENT_TYPE" "message/rfc822" in
          if negb (String.eqb ctype "message/rfc822") then
            inl (RaiseResponse
                   (WSGIResponse_new "415 Unsupported Media Type" None))
          else inr tt
    end.

Definition _ptr_lookup (environ : Environ) : Environ :=
  let ip := environ_get environ "REMOTE_ADDR" "0.0.0.0" in
  let answers := default [] (resolver_query world ip) in
  match answers with
  | first :: _ => set_var "slimta.reverse_address" first environ
  | [] => environ
  end.

Definition _trigger_ptr_lookup : M unit :=
  emit (Spawn (spawned world));;
  modify_environ (set_ptr_lookup_thread (spawned world)).

Definition _get_sender (environ : Environ) : Py.Exc + string :=
  Base64.b64decode (environ_get environ (sender_header self) "").

Definition _get_recipients (environ : Environ) : Py.Exc + list string :=
  match vars environ !! rcpt_header self with
  | None => inr []
  | Some rcpts_raw =>
      if String.eqb rcpts_raw "" then inr []
      else decode_all (Re.split rcpts_raw)
  end.

Definition _get_ehlo (environ : Environ) : string :=
  let dflt := "[" ++ environ_get environ "REMOTE_ADDR" "unknown" ++ "]" in
  environ_get environ (ehlo_header self) dflt.

(** [environ['wsgi.input'].read(content_length)]: the handler blocks here,
    which is when the lookup greenlet gets to run. *)
Definition stream_read (size : Z) : M string :=
  environ <- get_environ;;
  match wsgi_input environ with
  | None => raise (RaiseExc (Py.KeyError (Py.repr "wsgi.input")))
  | Some input =>
      emit (StreamRead size);;
      modify_environ
        (fun e => mkEnviron (vars e) (Some (file_rest input size))
                            (ptr_lookup_thread e));;
      (if lookup_finishes world then modify_environ _ptr_lookup else ret tt);;
      ret (file_read input size)
  end.

Definition _get_envelope : M Envelope :=
  environ <- get_environ;;
  sender <- lift_exc (_get_sender environ);;
  recipients <- lift_exc (_get_recipients environ);;
  let env := Envelope_new sender recipients in
  size <- lift_exc (content_length environ);;
  data <- stream_read size;;
  emit (Parse data);;
  message <- lift_exc (envelope_parse world data);;
  ret (set_parsed message env).

Definition _add_envelope_extras (environ : Environ) (env : Envelope)
  : Envelope :=
  let env := set_client "ip"
               (Some (environ_get environ "REMOTE_ADDR" "unknown")) env in
  let env := set_client "host"
               (vars environ !! "slimta.reverse_address") env in
  let env := set_client "name" (Some (_get_ehlo environ)) env in
  set_client "protocol"
    (Some (Py.upper (environ_get environ "wsgi.url_scheme" "http"))) env.

(** Every path of [_enqueue_envelope] ends in [raise]: it never returns. *)
Definition _enqueue_envelope (env : Envelope) : M Empty_set :=
  emit (Handoff env);;
  results <- lift_exc (handoff self env);;
  match results with
  | [] => raise (RaiseExc (Py.IndexError "list index out of range"))
  | (_, QueueFailure _) :: _ =>
      let reply := mkReply "550" "5.6.0 Error queuing message" in
      raise (RaiseResponse (_build_http_response reply))
  | (_, RelayFailure relay_reply) :: _ =>
      raise (RaiseResponse (_build_http_response relay_reply))
  | (_, Accepted _) :: _ =>
      let reply := mkReply "250" "2.6.0 Message accepted for delivery" in
      raise (RaiseResponse (_build_http_response reply))
  end.

(** The body of the [try] statement of [__call__]. *)
Definition try_body : M Empty_set :=
  environ <- get_environ;;
  lift (_validate_request environ);;
  env <- _get_envelope;;
  environ <- get_environ;;
  _enqueue_envelope (_add_envelope_extras environ env).

Definition fault_message (exc : Py.Exc) : string :=
  Py.str exc ++ String Py.newline "".

Definition on_raise (raised : Raised) : M (list string) :=
  match raised with
  | RaiseResponse res =>
      emit (StartResponse (status res) (headers res));;
      emit (LogResponse (status res) (headers res));;
      ret (data res)
  | RaiseExc exc =>
      emit (LogException exc);;
      let msg := fault_message exc in
      let headers := [("Content-Length", HInt (Py.len msg));
                      ("Content-Type", HStr "text/plain")] in
      emit (StartResponse "500 Internal Server Error" headers);;
      ret [msg]
  end.

Definition kill_ptr_lookup : M unit :=
  environ <- get_environ;;
  match ptr_lookup_thread environ with
  | None => raise (RaiseExc (Py.KeyError (Py.repr "slimta.ptr_lookup_thread")))
  | Some thread => emit (Kill thread false)
  end.

Definition __call__ : M (list string) :=
  emit LogRequest;;
  _trigger_ptr_lookup;;
  try_except_finally
    (never <- try_body;; match never : Empty_set with end)
    on_raise
    kill_ptr_lookup.

(** One request: the handler run on a fresh trace. *)
Definition handle (environ : Environ) : Result (list string) * State :=
  __call__ (mkState environ []).

End Handler.

(** ** The response on the wire *)

Record WireResponse : Type := mkWire {
  statusLine : string;
  wireHeaders : list Header;
  wireBody : list string
}.

Definition start_response_calls (trace : list Event)
  : list (string * list Header) :=
  omap (fun e => match e with
                 | StartResponse s h => Some (s, h)
                 | _ => None
                 end) trace.

(** The response the server sends after a run: what the one call of
    [start_response] was given, and the body the handler returned. *)
Definition wire_response (run : Result (list string) * State)
  : option WireResponse :=
  match run with
  | (inr body, st) =>
      match start_response_calls (st_trace st) with
      | [(s, h)] => Some (mkWire s h body)
      | _ => None
      end
  | (inl _, _) => None
  end.

(** ** Sample collaborators and requests *)

Module Sample.

(** A matcher for literal patterns: the path starts with the pattern. *)
Definition literal_match (pattern path : string) : bool :=
  String.prefix pattern path.

Definition parse_any (raw : string) : Py.Exc + ParsedMessage :=
  inr (mkParsed [] raw).

Definition no_records (ip : string) : option (list string) := Some [].

Definition queue_returns (results : list (string * DeliveryOutcome))
    (env : Envelope) : Py.Exc + list (string * DeliveryOutcome) :=
  inr results.

Definition edge (results : list (string * DeliveryOutcome)) : WsgiEdge :=
  WsgiEdge_init (queue_returns results) PatternNone
                default_sender_header default_rcpt_header
                default_ehlo_header.

Definition request (entries : list (string * string)) (body : string)
  : Environ :=
  mkEnviron (list_to_map entries) (Some body) None.

(** A well-formed submission: sender "test", recipients "ABC" and "DEF". *)
Definition post : Environ :=
  request [("REQUEST_METHOD", "POST");
           ("PATH_INFO", "/");
           ("CONTENT_TYPE", "message/rfc822");
           ("CONTENT_LENGTH", "5");
           ("REMOTE_ADDR", "10.0.0.1");
           ("HTTP_X_ENVELOPE_SENDER", "dGVzdA==");
           ("HTTP_X_ENVELOPE_RECIPIENT", "QUJD, REVG")]
          "hello world".

Definition world : World :=
  mkWorld literal_match parse_any 7%nat no_records false.

Definition run (results : list (string * DeliveryOutcome))
    (environ : Environ) : Result (list string) * State :=
  handle world (edge results) environ.

(** The same edge, serving only paths under [/mail]. *)
Definition edge_at_mail (results : list (string * DeliveryOutcome))
  : WsgiEdge :=
  WsgiEdge_init (queue_returns results) (PatternStr "/mail")
                default_sender_header default_rcpt_header
                default_ehlo_header.

Definition get : Environ :=
  request [("REQUEST_METHOD", "get"); ("PATH_INFO", "/")] "".

Definition post_html : Environ :=
  request [("REQUEST_METHOD", "post"); ("PATH_INFO", "/");
           ("CONTENT_TYPE", "text/html")] "".

(** No sender, no recipients, no content type, no length. *)
Definition post_bare : Environ :=
  request [("REQUEST_METHOD", "POST"); ("PATH_INFO", "/")] "hello world".


(** The sender is not valid base64: one pad is missing. *)
Definition post_bad_sender : Environ :=
  request [("REQUEST_METHOD", "POST");
           ("HTTP_X_ENVELOPE_SENDER", "dGVzdA=")] "".

Definition queue_failed : list (string * DeliveryOutcome) :=
  [("ABC", QueueFailure "disk full"); ("DEF", Accepted "1")].

Definition relay_deferred : list (string * DeliveryOutcome) :=
  [("ABC", RelayFailure (mkReply "450" "4.0.0 Try again later"));
   ("DEF", Accepted "1")].

End Sample.

(** ** Vocabulary of the statements *)

(** The state in which the [try] statement of [__call__] is entered: the
    request is logged and the lookup greenlet is spawned and stored. *)
Definition entry_state (world : World) (environ : Environ) : State :=
  mkState (set_ptr_lookup_thread (spawned world) environ)
          [LogRequest; Spawn (spawned world)].

(** Events of the pipeline proper: none of them starts a response, spawns
    or kills a greenlet, or writes to a log. *)
Definition quiet (e : Event) : Prop :=
  match e with
  | StreamRead _ | Parse _ | Handoff _ => True
  | _ => False
  end.

(** Events that start or end a greenlet. *)
Definition spawn_or_kill (e : Event) : Prop :=
  match e with
  | Spawn _ | Kill _ _ => True
  | _ => False
  end.

(** What the [except] clauses answer for what was raised. *)
Definition respond (raised : Raised) : WireResponse :=
  match raised with
  | RaiseResponse res => mkWire (status res) (headers res) (data res)
  | RaiseExc exc =>
      mkWire "500 Internal Server Error"
             [("Content-Length", HInt (Py.len (fault_message exc)));
              ("Content-Type", HStr "text/plain")]
             [fault_message exc]
  end.

Definition respond_events (raised : Raised) : list Event :=
  match raised with
  | RaiseResponse res =>
      [StartResponse (status res) (headers res);
       LogResponse (status res) (headers res)]
  | RaiseExc exc =>
      [LogException exc;
       StartResponse (statusLine (respond raised)) (wireHeaders (respond raised))]
  end.

(** The same edge in front of another queue. *)
Definition with_handoff
    (h : Envelope -> Py.Exc + list (string * DeliveryOutcome))
    (self : WsgiEdge) : WsgiEdge :=
  mkWsgiEdge h (uri_pattern self) (sender_header self) (rcpt_header self)
             (ehlo_header self).

(** The value of the [X-Smtp-Reply] header for a reply. *)
Definition diagnostic (reply : Reply) : list Header :=
  [("X-Smtp-Reply",
    HStr (code reply ++ "; "
          ++ Wsgiref._formatparam "message" (Some (message reply))))].

(** What [_formatparam] does to one byte of the value. *)
Definition quoted_char (c : ascii) : string :=
  if Ascii.eqb c Py.backslash then String Py.backslash (String Py.backslash "")
  else if Ascii.eqb c Py.dquote then String Py.backslash (String Py.dquote "")
  else String c "".

Fixpoint quoted (v : string) : string :=
  match v with
  | EmptyString => EmptyString
  | String c r => quoted_char c ++ quoted r
  end.

Definition plain (c : ascii) : Prop := c <> Py.backslash /\ c <> Py.dquote.

Fixpoint all_plain (s : string) : Prop :=
  match s with
  | EmptyString => True
  | String c r => plain c /\ all_plain r
  end.

Definition closing : string := String Py.dquote "".

Definition reply_param (msg : string) : string :=
  Wsgiref._formatparam "message" (Some msg).

(** A computation keeps the greenlet slot of [environ] and only appends
    quiet events to the trace. *)
Definition steady {A} (m : M A) : Prop :=
  forall st r st',
    m st = (r, st') ->
    ptr_lookup_thread (st_environ st') = ptr_lookup_thread (st_environ st)
    /\ exists tr, st_trace st' = (st_trace st ++ tr)%list /\ Forall quiet tr.

(** ** The monad and the invariant of the pipeline *)

Section Steady.

Lemma steady_ret {A} (a : A) : steady (ret a).
Proof.
  intros st r st' [= <- <-]. split; [done|].
  exists []. by rewrite app_nil_r.
Qed.

Lemma steady_raise {A} (r : Raised) : steady (raise (A := A) r).
Proof.
  intros st r' st' [= <- <-]. split; [done|].
  exists []. by rewrite app_nil_r.
Qed.

Lemma steady_lift {A} (r : Result A) : steady (lift r).
Proof.
  intros st r' st' [= <- <-]. split; [done|].
  exists []. by rewrite app_nil_r.
Qed.

Lemma steady_lift_exc {A} (r : Py.Exc + A) : steady (lift_exc r).
Proof.
  intros st r' st' H. unfold lift_exc in H.
  destruct r; injection H as <- <-; (split; [done|]);
    exists []; by rewrite app_nil_r.
Qed.

Lemma steady_get_environ : steady get_environ.
Proof.
  intros st r st' [= <- <-]. split; [done|].
  exists []. by rewrite app_nil_r.
Qed.

Lemma steady_emit (e : Event) : quiet e -> steady (emit e).
Proof.
  intros He st r st' [= <- <-]. split; [done|].
  exists [e]. split; [done|]. by constructor.
Qed.

Lemma steady_modify (f : Environ -> Environ) :
  (forall e, ptr_lookup_thread (f e) = ptr_lookup_thread e) ->
  steady (modify_environ f).
Proof.
  intros Hf st r st' [= <- <-]. split; [apply Hf|].
  exists []. by rewrite app_nil_r.
Qed.

Lemma steady_bind {A B} (m : M A) (k : A -> M B) :
  steady m -> (forall a, steady (k a)) -> steady (bind m k).
Proof.
  intros Hm Hk st r st' H. unfold bind in H.
  destruct (m st) as [[raised|a] st1] eqn:E.
  - injection H as <- <-. exact (Hm _ _ _ E).
  - destruct (Hm _ _ _ E) as [Ht (tr1 & Htr1 & Hq1)].
    destruct (Hk a _ _ _ H) as [Ht' (tr2 & Htr2 & Hq2)].
    split; [congruence|].
    exists (tr1 ++ tr2)%list. split.
    + by rewrite Htr2, Htr1, app_assoc.
    + by apply Forall_app.
Qed.

End Steady.


(** ** Strings *)

Lemma startswith_char (s : string) (c : ascii) :
  Py.startswith s (String c "") = true <-> exists r, s = String c r.
Proof.
  unfold Py.startswith. destruct s as [|d r]; cbn [String.prefix].
  - split; [done|]. by intros [r ?].
  - destruct (ascii_dec c d) as [->|Hne].
    + split; [eauto|]. intros _. by destruct r.
    + split; [done|]. intros [r' [= -> ->]]. done.
Qed.

(** ** The handler: every run answers once and kills the greenlet *)

Section Pipeline.

Variable world : World.
Variable self : WsgiEdge.

Lemma ptr_lookup_keeps_thread (e : Environ) :
  ptr_lookup_thread (_ptr_lookup world e) = ptr_lookup_thread e.
Proof.
  unfold _ptr_lookup.
  by destruct (default [] (resolver_query world _)).
Qed.

Lemma steady_stream_read (size : Z) : steady (stream_read world size).
Proof.
  unfold stream_read.
  apply steady_bind; [apply steady_get_environ|]. intros environ.
  destruct (wsgi_input environ); [|apply steady_raise].
  apply steady_bind; [by apply steady_emit|]. intros _.
  apply steady_bind; [by apply steady_modify|]. intros _.
  apply steady_bind; [|intros _; apply steady_ret].
  destruct (lookup_finishes world); [|apply steady_ret].
  apply steady_modify, ptr_lookup_keeps_thread.
Qed.

Lemma steady_get_envelope : steady (_get_envelope world self).
Proof.
  unfold _get_envelope.
  repeat first
    [ apply steady_stream_read
    | apply steady_get_environ
    | apply steady_lift_exc
    | apply steady_ret
    | by apply steady_emit
    | apply steady_bind; [|intros ?] ].
Qed.

Lemma steady_enqueue_envelope (env : Envelope) :
  steady (_enqueue_envelope self env).
Proof.
  unfold _enqueue_envelope.
  apply steady_bind; [by apply steady_emit|]. intros _.
  apply steady_bind; [apply steady_lift_exc|]. intros results.
  destruct results as [|[rcpt []] rest]; apply steady_raise.
Qed.

Lemma steady_try_body : steady (try_body world self).
Proof.
  unfold try_body.
  repeat first
    [ apply steady_get_envelope
    | apply steady_enqueue_envelope
    | apply steady_get_environ
    | apply steady_lift
    | apply steady_bind; [|intros ?] ].
Qed.

(** The [try] body never returns: it always raises. *)
Lemma try_body_raises (st : State) :
  exists raised st', try_body world self st = (inl raised, st').
Proof.
  destruct (try_body world self st) as [[raised|[]] st'] eqn:E. eauto.
Qed.

Lemma start_response_calls_app (t1 t2 : list Event) :
  start_response_calls (t1 ++ t2) =
  (start_response_calls t1 ++ start_response_calls t2)%list.
Proof. apply omap_app. Qed.

Lemma start_response_calls_quiet (tr : list Event) :
  Forall quiet tr -> start_response_calls tr = [].
Proof.
  induction 1 as [|e tr He _ IH]; [done|].
  destruct e; simpl in *; try done.
Qed.

(** The shape of every run of the handler. *)
Lemma handle_run (environ : Environ) (raised : Raised) (st : State) :
  try_body world self (entry_state world environ) = (inl raised, st) ->
  handle world self environ =
  (inr (wireBody (respond raised)),
   mkState (st_environ st)
           (st_trace st ++ respond_events raised
            ++ [Kill (spawned world) false])%list).
Proof.
  intros Hbody.
  destruct (steady_try_body _ _ _ Hbody) as [Ht _].
  unfold handle, __call__, bind, emit, _trigger_ptr_lookup, bind,
    modify_environ, emit, try_except_finally. simpl.
  fold (entry_state world environ). rewrite Hbody.
  destruct st as [env1 tr1]. simpl in *.
  destruct raised as [res|exc]; simpl;
    unfold bind, emit, kill_ptr_lookup, bind, get_environ, ret; simpl;
    rewrite Ht; simpl; unfold emit; simpl;
    rewrite <- ?app_assoc; reflexivity.
Qed.

Lemma wire_response_handle (environ : Environ) (raised : Raised)
    (st : State) :
  try_body world self (entry_state world environ) = (inl raised, st) ->
  wire_response (handle world self environ) = Some (respond raised).
Proof.
  intros Hbody. rewrite (handle_run _ _ _ Hbody).
  destruct (steady_try_body _ _ _ Hbody) as [_ (tr & Htr & Hq)].
  unfold wire_response. simpl st_trace. rewrite Htr.
  rewrite !start_response_calls_app, (start_response_calls_quiet tr Hq).
  by destruct raised.
Qed.

End Pipeline.

(** ** The stages of the [try] body *)

Section Stages.

Variable world : World.
Variable self : WsgiEdge.

(** Validation does not look at the greenlet slot. *)
Lemma validate_entry (environ : Environ) :
  _validate_request world self
    (st_environ (entry_state world environ))
  = _validate_request world self environ.
Proof. reflexivity. Qed.

Lemma try_body_rejected (environ : Environ) (raised : Raised) :
  _validate_request world self environ = inl raised ->
  try_body world self (entry_state world environ)
  = (inl raised, entry_state world environ).
Proof.
  intros H. unfold try_body, bind, get_environ, lift.
  by rewrite validate_entry, H.
Qed.


Lemma try_body_enqueue (environ : Environ) (env : Envelope) (st : State) :
  _validate_request world self environ = inr tt ->
  _get_envelope world self (entry_state world environ) = (inr env, st) ->
  try_body world self (entry_state world environ)
  = _enqueue_envelope self
      (_add_envelope_extras self (st_environ st) env) st.
Proof.
  intros Hv He. unfold try_body, bind, get_environ, lift.
  by rewrite validate_entry, Hv, He.
Qed.

(** What [_enqueue_envelope] raises, by the first entry of the results. *)
Lemma enqueue_raises (env : Envelope) (st : State)
    (results : list (string * DeliveryOutcome)) :
  handoff self env = inr results ->
  exists st',
    _enqueue_envelope self env st =
    (inl match results with
         | [] => RaiseExc (Py.IndexError "list index out of range")
         | (_, QueueFailure _) :: _ =>
             RaiseResponse
               (_build_http_response
                  (mkReply "550" "5.6.0 Error queuing message"))
         | (_, RelayFailure relay_reply) :: _ =>
             RaiseResponse (_build_http_response relay_reply)
         | (_, Accepted _) :: _ =>
             RaiseResponse
               (_build_http_response
                  (mkReply "250" "2.6.0 Message accepted for delivery"))
         end, st').
Proof.
  intros H. unfold _enqueue_envelope, bind, emit, lift_exc. rewrite H.
  destruct results as [|[rcpt []] rest]; eauto.
Qed.

(** The response to a request that reaches the queue. *)
Lemma handed_off (environ : Environ) (env : Envelope) (st : State)
    (results : list (string * DeliveryOutcome)) :
  _validate_request world self environ = inr tt ->
  _get_envelope world self (entry_state world environ) = (inr env, st) ->
  handoff self (_add_envelope_extras self (st_environ st) env)
  = inr results ->
  wire_response (handle world self environ) =
  Some (respond
          match results with
          | [] => RaiseExc (Py.IndexError "list index out of range")
          | (_, QueueFailure _) :: _ =>
              RaiseResponse
                (_build_http_response
                   (mkReply "550" "5.6.0 Error queuing message"))
          | (_, RelayFailure relay_reply) :: _ =>
              RaiseResponse (_build_http_response relay_reply)
          | (_, Accepted _) :: _ =>
              RaiseResponse
                (_build_http_response
                   (mkReply "250" "2.6.0 Message accepted for delivery"))
          end).
Proof.
  intros Hv He Hq.
  destruct (enqueue_raises _ st _ Hq) as [st' Hr].
  eapply wire_response_handle.
  rewrite (try_body_enqueue _ _ _ Hv He). exact Hr.
Qed.

Lemma build_http_response_headers (reply : Reply) :
  headers (_build_http_response reply) = diagnostic reply
  /\ data (_build_http_response reply) = [].
Proof.
  unfold _build_http_response.
  destruct (Py.startswith _ "2"); [done|].
  destruct (Py.startswith _ "4"); [done|].
  by destruct (String.eqb _ "535").
Qed.

End Stages.

(** ** The reply header can be read back *)

Lemma append_cons (x : ascii) (a b : string) :
  String x a ++ b = String x (a ++ b).
Proof. reflexivity. Qed.

Lemma append_nil_l (a : string) : "" ++ a = a.
Proof. reflexivity. Qed.

Lemma append_assoc (a b c : string) : (a ++ b) ++ c = a ++ (b ++ c).
Proof.
  induction a as [|x a IH]; [done|]. by rewrite !append_cons, IH.
Qed.

Lemma replace_quoted (v : string) :
  Py.replace_char Py.dquote (String Py.backslash (String Py.dquote ""))
    (Py.replace_char Py.backslash
       (String Py.backslash (String Py.backslash "")) v)
  = quoted v.
Proof.
  induction v as [|c r IH]; [done|].
  cbn [Py.replace_char quoted]. unfold quoted_char.
  destruct (Ascii.eqb_spec c Py.backslash) as [->|Hb].
  - rewrite !append_cons, append_nil_l. cbn [Py.replace_char].
    change (Ascii.eqb Py.backslash Py.dquote) with false.
    cbv iota. by rewrite IH.
  - cbn [Py.replace_char].
    destruct (Ascii.eqb_spec c Py.dquote) as [->|Hq];
      by rewrite ?append_cons, ?append_nil_l, IH.
Qed.

Lemma formatparam_message (v : string) :
  Wsgiref._formatparam "message" (Some v) =
  match v with
  | EmptyString => "message"
  | _ => "message=" ++ String Py.dquote (quoted v ++ String Py.dquote "")
  end.
Proof.
  unfold Wsgiref._formatparam. rewrite replace_quoted.
  destruct v as [|c r]; [done|].
  unfold Py.len. simpl String.length.
  destruct (Z.ltb_spec 0 (Z.of_nat (S (String.length r)))); [done|lia].
Qed.

Lemma quoted_char_cases (c : ascii) :
  (c = Py.backslash
   /\ quoted_char c = String Py.backslash (String Py.backslash ""))
  \/ (c = Py.dquote
      /\ quoted_char c = String Py.backslash (String Py.dquote ""))
  \/ (plain c /\ quoted_char c = String c "").
Proof.
  unfold quoted_char, plain.
  destruct (Ascii.eqb_spec c Py.backslash) as [->|Hb]; [by left|].
  destruct (Ascii.eqb_spec c Py.dquote) as [->|Hq]; [by right; left|].
  by right; right.
Qed.

Lemma quoted_cons (c : ascii) (r : string) :
  quoted (String c r) = quoted_char c ++ quoted r.
Proof. reflexivity. Qed.

Lemma quoted_app (a b : string) : quoted (a ++ b) = quoted a ++ quoted b.
Proof.
  induction a as [|c a IH]; [done|].
  by rewrite append_cons, !quoted_cons, IH, append_assoc.
Qed.

Lemma quoted_plain (s : string) : all_plain s -> quoted s = s.
Proof.
  induction s as [|c s IH]; [done|]. intros [[Hb Hq] Hs].
  rewrite quoted_cons. unfold quoted_char.
  destruct (Ascii.eqb_spec c Py.backslash); [done|].
  destruct (Ascii.eqb_spec c Py.dquote); [done|].
  by rewrite append_cons, append_nil_l, IH.
Qed.

(** A semicolon in the quoted text, closing quote included, is a semicolon
    of the value, and the text splits there. *)
Lemma quoted_split_semicolon (v x y : string) :
  quoted v ++ closing = x ++ String ";" y ->
  exists v1 v2,
    v = v1 ++ String ";" v2 /\ x = quoted v1 /\ y = quoted v2 ++ closing.
Proof.
  revert x. induction v as [|c v IH]; intros x.
  - destruct x as [|a [|b x]]; simpl; intros H; by inversion H.
  - rewrite quoted_cons.
    destruct (quoted_char_cases c) as [[-> ->]|[[-> ->]|[Hp ->]]];
      rewrite !append_cons, ?append_nil_l.
    + destruct x as [|a [|b x]]; rewrite ?append_cons, ?append_nil_l;
        intros H; try by inversion H.
      injection H as <- <- H. destruct (IH _ H) as (v1 & v2 & -> & -> & ->).
      by exists (String Py.backslash v1), v2.
    + destruct x as [|a [|b x]]; rewrite ?append_cons, ?append_nil_l;
        intros H; try by inversion H.
      injection H as <- <- H. destruct (IH _ H) as (v1 & v2 & -> & -> & ->).
      by exists (String Py.dquote v1), v2.
    + destruct x as [|a x]; rewrite ?append_cons, ?append_nil_l; intros H.
      * injection H as -> <-. by exists "", v.
      * injection H as <- H. destruct (IH _ H) as (v1 & v2 & -> & -> & ->).
        exists (String c v1), v2. split; [done|]. split; [|done].
        rewrite quoted_cons. unfold quoted_char.
        destruct Hp as [Hb Hq].
        destruct (Ascii.eqb_spec c Py.backslash); [done|].
        by destruct (Ascii.eqb_spec c Py.dquote).
Qed.

(** Plain text at the head of the quoted text is a head of the value. *)
Lemma quoted_plain_prefix (s v w : string) :
  all_plain s ->
  quoted v ++ closing = s ++ w ->
  exists v', v = s ++ v' /\ w = quoted v' ++ closing.
Proof.
  revert v. induction s as [|a s IH]; intros v Hs.
  - rewrite append_nil_l. intros <-. by exists v.
  - destruct Hs as [[Hb Hq] Hs]. rewrite append_cons.
    destruct v as [|c v].
    + intros H. injection H as <- _. done.
    + rewrite quoted_cons.
      destruct (quoted_char_cases c) as [[-> ->]|[[-> ->]|[Hp ->]]];
        rewrite !append_cons, ?append_nil_l; intros H.
      * injection H as <- _. done.
      * injection H as <- _. done.
      * injection H as <- H. destruct (IH _ Hs H) as (v' & -> & ->).
        by exists v'.
Qed.

Lemma quoted_closing_nonempty (v : string) : quoted v ++ closing <> "".
Proof.
  destruct v as [|c v]; [done|]. rewrite quoted_cons.
  by destruct (quoted_char_cases c) as [[-> ->]|[[-> ->]|[Hp ->]]].
Qed.

Lemma quoted_closing_no_quote_head (v w : string) :
  quoted v ++ closing = String Py.dquote w -> v = "" /\ w = "".
Proof.
  destruct v as [|c v]; [by intros [= <-]|]. rewrite quoted_cons.
  destruct (quoted_char_cases c) as [[-> ->]|[[-> ->]|[[Hb Hq] ->]]];
    rewrite !append_cons, ?append_nil_l; intros H; by inversion H.
Qed.

Lemma quoted_inj (v1 v2 : string) :
  quoted v1 ++ closing = quoted v2 ++ closing -> v1 = v2.
Proof.
  revert v2. induction v1 as [|c v1 IH]; intros v2.
  - change (quoted "" ++ closing) with (String Py.dquote "").
    intros H. symmetry in H.
    by apply quoted_closing_no_quote_head in H as [-> _].
  - destruct v2 as [|d v2].
    { change (quoted "" ++ closing) with (String Py.dquote "").
      intros H. by apply quoted_closing_no_quote_head in H as [? _]. }
    rewrite !quoted_cons.
    destruct (quoted_char_cases c) as [[-> ->]|[[-> ->]|[[Hb Hq] ->]]];
      destruct (quoted_char_cases d) as [[-> ->]|[[-> ->]|[[Hb' Hq'] ->]]];
      rewrite !append_cons, ?append_nil_l; intros H; inversion H;
      subst; try done; f_equal; by apply IH.
Qed.

Lemma append_eq_append (a b c d : string) :
  a ++ b = c ++ d ->
  (exists k, a = c ++ k /\ d = k ++ b) \/ (exists k, c = a ++ k /\ b = k ++ d).
Proof.
  revert c. induction a as [|x a IH]; intros c.
  - rewrite append_nil_l. intros ->. right. by exists c.
  - destruct c as [|y c].
    + rewrite append_nil_l. intros <-. left. by exists (String x a).
    + rewrite !append_cons. intros [= <- H].
      destruct (IH _ H) as [(k & -> & ->)|(k & -> & ->)];
        [left|right]; by exists k.
Qed.

(** Text without a semicolon at the head of [k ++ ";" ++ b] lies within
    [k]. *)
Lemma semicolon_after_prefix (s a k b : string) :
  Py.contains_char ";" s = false ->
  s ++ a = k ++ String ";" b ->
  exists k', k = s ++ k' /\ a = k' ++ String ";" b.
Proof.
  revert k. induction s as [|x s IH]; intros k Hs.
  - rewrite append_nil_l. intros ->. by exists k.
  - cbn [Py.contains_char] in Hs. apply orb_false_iff in Hs as [Hx Hs].
    destruct k as [|y k]; rewrite ?append_cons, ?append_nil_l.
    + intros [= Hsemi _]. subst x. by rewrite Ascii.eqb_refl in Hx.
    + intros [= Hxy H]. subst y.
      destruct (IH _ Hs H) as (k' & -> & ->). by exists k'.
Qed.

Lemma reply_param_inj (m1 m2 : string) :
  reply_param m1 = reply_param m2 -> m1 = m2.
Proof.
  unfold reply_param. rewrite !formatparam_message.
  destruct m1 as [|c1 r1], m2 as [|c2 r2]; try done.
  intros H. injection H as H. by apply quoted_inj.
Qed.

(** No reply parameter ends with a semicolon, a space and another one. *)
Lemma reply_param_suffix_free (k m1 m2 : string) :
  reply_param m2 <> k ++ "; " ++ reply_param m1.
Proof.
  unfold reply_param. rewrite !formatparam_message. intros H.
  destruct m2 as [|c2 r2].
  - assert (Hc : Py.contains_char ";" "message" = false) by reflexivity.
    rewrite <- (append_nil_l "message") in H at 1.
    change ("" ++ "message") with ("message" ++ "") in H.
    destruct (semicolon_after_prefix "message" "" k _ Hc H) as (k' & _ & Hk).
    by destruct k'.
  - change ("message=" ++ String Py.dquote (quoted (String c2 r2) ++ closing))
      with (("message=" ++ closing) ++ (quoted (String c2 r2) ++ closing)) in H.
    change (k ++ "; " ++ ?x) with (k ++ String ";" (String " " x)) in H.
    destruct (semicolon_after_prefix ("message=" ++ closing)
                (quoted (String c2 r2) ++ closing) k _ eq_refl H)
      as (k' & _ & H').
    clear H. apply quoted_split_semicolon in H' as (v1 & v2 & _ & _ & H).
    destruct m1 as [|c1 r1].
    + change (String " " "message") with (" message" ++ "") in H.
      symmetry in H. apply quoted_plain_prefix in H as (v' & _ & H').
      * symmetry in H'. by apply quoted_closing_nonempty in H'.
      * by vm_compute.
    + change (String " " ("message=" ++ String Py.dquote ?x))
        with (" message=" ++ String Py.dquote x) in H.
      symmetry in H. apply quoted_plain_prefix in H as (v' & _ & H').
      * symmetry in H'.
        apply quoted_closing_no_quote_head in H' as [_ H'].
        by apply quoted_closing_nonempty in H'.
      * by vm_compute.
Qed.

(** The value of the reply header determines the code and the message. *)
Lemma reply_value_inj (c1 m1 c2 m2 : string) :
  c1 ++ "; " ++ reply_param m1 = c2 ++ "; " ++ reply_param m2 ->
  c1 = c2 /\ m1 = m2.
Proof.
  intros H.
  assert (Hstep : forall a b ma mb k,
             a = b ++ k ->
             "; " ++ reply_param mb = k ++ "; " ++ reply_param ma ->
             a = b /\ ma = mb).
  { intros a b ma mb k -> Hk. destruct k as [|x [|y k]].
    - rewrite append_nil_l in Hk. injection Hk as Hk.
      split; [clear; induction b; [done|by rewrite append_cons; f_equal]|].
      symmetry. by apply reply_param_inj.
    - injection Hk as _ Hk. discriminate Hk.
    - rewrite !append_cons in Hk. injection Hk as _ _ Hk.
      by apply reply_param_suffix_free in Hk. }
  apply append_eq_append in H as [(k & Hk & H)|(k & Hk & H)].
  - by apply (Hstep c1 c2 m1 m2 k).
  - destruct (Hstep c2 c1 m2 m1 k Hk H) as [-> ->]. done.
Qed.

Lemma diagnostic_inj (r1 r2 : Reply) :
  diagnostic r1 = diagnostic r2 -> r1 = r2.
Proof.
  unfold diagnostic. intros [= H].
  apply reply_value_inj in H as [Hc Hm].
  destruct r1, r2; simpl in *; congruence.
Qed.

(** ** Delivery outcomes on the wire *)

Section Outcomes.

Variable world : World.
Variable self : WsgiEdge.

(** C1, as the code has it: when a request passes validation, its envelope
    is built and the first outcome the queue returns is a [QueueError],
    the response has status 500 Internal Server Error, an empty body, and
    the one header [X-Smtp-Reply] with reply code "550" and message
    "5.6.0 Error queuing message". *)
Theorem queue_failure_response (environ : Environ) (env : Envelope)
    (st : State) (rcpt reason : string)
    (rest : list (string * DeliveryOutcome)) :
  _validate_request world self environ = inr tt ->
  _get_envelope world self (entry_state world environ) = (inr env, st) ->
  handoff self (_add_envelope_extras self (st_environ st) env)
  = inr ((rcpt, QueueFailure reason) :: rest) ->
  wire_response (handle world self environ) =
  Some (mkWire "500 Internal Server Error"
               [("X-Smtp-Reply",
                 HStr ("550; message="
                       ++ String Py.dquote
                            ("5.6.0 Error queuing message"
                             ++ String Py.dquote "")))]
               []).
Proof.
  intros Hv He Hq. by rewrite (handed_off _ _ _ _ _ _ Hv He Hq).
Qed.

(** C2: when the first outcome is a [RelayError], the status follows from
    the relay's reply code alone: 200 OK for a code starting with "2",
    503 Service Unavailable for a code starting with "4", 401 Unauthorized
    for "535", 500 Internal Server Error for any other code; in each case
    the body is empty and the one header is [X-Smtp-Reply], whose value is
    the relay's code followed by its message as a quoted parameter; no
    other reply gives that header, so code and message can be read back
    from it. *)
Theorem relay_failure_response (environ : Environ) (env : Envelope)
    (st : State) (rcpt : string) (reply : Reply)
    (rest : list (string * DeliveryOutcome)) :
  _validate_request world self environ = inr tt ->
  _get_envelope world self (entry_state world environ) = (inr env, st) ->
  handoff self (_add_envelope_extras self (st_environ st) env)
  = inr ((rcpt, RelayFailure reply) :: rest) ->
  exists w,
    wire_response (handle world self environ) = Some w
    /\ wireHeaders w =
       [("X-Smtp-Reply",
         HStr (code reply ++ "; "
               ++ Wsgiref._formatparam "message" (Some (message reply))))]
    /\ (forall reply', diagnostic reply' = wireHeaders w -> reply' = reply)
    /\ wireBody w = []
    /\ (Py.startswith (code reply) "2" = true ->
        statusLine w = "200 OK")
    /\ (Py.startswith (code reply) "4" = true ->
        statusLine w = "503 Service Unavailable")
    /\ (code reply = "535" -> statusLine w = "401 Unauthorized")
    /\ (Py.startswith (code reply) "2" = false ->
        Py.startswith (code reply) "4" = false ->
        code reply <> "535" ->
        statusLine w = "500 Internal Server Error").
Proof.
  intros Hv He Hq. eexists. split; [exact (handed_off _ _ _ _ _ _ Hv He Hq)|].
  destruct (build_http_response_headers reply) as [Hh Hd].
  simpl. rewrite Hh, Hd. split; [done|].
  split; [intros reply' Heq; by apply diagnostic_inj|]. split; [done|].
  unfold _build_http_response.
  destruct (Py.startswith (code reply) "2") eqn:E2.
  { repeat split; try done.
    - intros E4. exfalso.
      apply startswith_char in E2 as [r2 E2].
      apply startswith_char in E4 as [r4 E4]. congruence.
    - intros H. rewrite H in E2. by vm_compute in E2. }
  destruct (Py.startswith (code reply) "4") eqn:E4.
  { repeat split; try done. intros H. rewrite H in E4. by vm_compute in E4. }
  destruct (String.eqb (code reply) "535") eqn:E5.
  { repeat split; try done. intros _ _ H. by apply String.eqb_eq in E5. }
  repeat split; try done. intros H. apply String.eqb_neq in E5. done.
Qed.

(** C10: when the queue returns an empty result list, indexing its first
    entry raises [IndexError]; the request ends in the generic fault
    response, status 500 Internal Server Error with the text of the
    error as its body, and no [X-Smtp-Reply] header. *)
Theorem empty_results_fault (environ : Environ) (env : Envelope)
    (st : State) :
  _validate_request world self environ = inr tt ->
  _get_envelope world self (entry_state world environ) = (inr env, st) ->
  handoff self (_add_envelope_extras self (st_environ st) env) = inr [] ->
  wire_response (handle world self environ) =
  Some (mkWire "500 Internal Server Error"
               [("Content-Length", HInt 24);
                ("Content-Type", HStr "text/plain")]
               ["list index out of range" ++ String Py.newline ""])
  /\ In (LogException (Py.IndexError "list index out of range"))
        (st_trace (snd (handle world self environ))).
Proof.
  intros Hv He Hq. split.
  - by rewrite (handed_off _ _ _ _ _ _ Hv He Hq).
  - destruct (enqueue_raises self _ st _ Hq) as [st' Hr].
    rewrite <- (try_body_enqueue _ _ _ _ _ Hv He) in Hr.
    rewrite (handle_run _ _ _ _ _ Hr). simpl.
    apply in_or_app. right. by left.
Qed.

End Outcomes.

(** ** Only the first result counts *)

(** C5: put the same edge in front of two queues that answer every envelope
    with non-empty result lists whose first entries are equal.  Every
    request then runs the same way on both, so the wire response, status
    and diagnostic header included, is the same: entries after the first
    never reach the response. *)
Theorem first_result_decides (world : World) (self : WsgiEdge)
    (h1 h2 : Envelope -> Py.Exc + list (string * DeliveryOutcome))
    (environ : Environ) :
  (forall env, exists r t1 t2, h1 env = inr (r :: t1) /\ h2 env = inr (r :: t2)) ->
  handle world (with_handoff h1 self) environ
  = handle world (with_handoff h2 self) environ
  /\ wire_response (handle world (with_handoff h1 self) environ)
     = wire_response (handle world (with_handoff h2 self) environ).
Proof.
  intros Hq.
  assert (Henq : forall env st,
             _enqueue_envelope (with_handoff h1 self) env st
             = _enqueue_envelope (with_handoff h2 self) env st).
  { intros env st. unfold _enqueue_envelope, bind, emit, lift_exc. simpl.
    destruct (Hq env) as (r & t1 & t2 & -> & ->).
    by destruct r as [rcpt []]. }
  assert (Hbody : forall st,
             try_body world (with_handoff h1 self) st
             = try_body world (with_handoff h2 self) st).
  { intros st. unfold try_body, bind, get_environ, lift.
    change (_validate_request world (with_handoff h1 self))
      with (_validate_request world (with_handoff h2 self)).
    destruct (_validate_request _ _ _); [done|].
    change (_get_envelope world (with_handoff h1 self))
      with (_get_envelope world (with_handoff h2 self)).
    destruct (_get_envelope _ _ _) as [[?|env] st']; [done|].
    apply Henq. }
  assert (Hrun : handle world (with_handoff h1 self) environ
                 = handle world (with_handoff h2 self) environ).
  { unfold handle, __call__, bind, try_except_finally.
    destruct (emit LogRequest _) as [[?|?] st0]; [done|].
    destruct (_trigger_ptr_lookup _ _) as [[?|?] st1]; [done|].
    by rewrite Hbody. }
  split; [exact Hrun | by rewrite Hrun].
Qed.

(** ** The lookup greenlet never outlives its request *)

(** C3: every run of the handler returns (no exception leaves it), and its
    trace is: the request is logged, the lookup greenlet is spawned, then
    events that neither spawn nor kill, and last of all a non-blocking
    [kill] of that very greenlet.  This holds on every path, whatever
    validation, envelope construction and the queue do. *)
Theorem lookup_thread_killed (world : World) (self : WsgiEdge)
    (environ : Environ) :
  exists body st tr,
    handle world self environ = (inr body, st)
    /\ st_trace st =
       ([LogRequest; Spawn (spawned world)] ++ tr
        ++ [Kill (spawned world) false])%list
    /\ Forall (fun e => ~ spawn_or_kill e) tr
    /\ ptr_lookup_thread (st_environ st) = Some (spawned world).
Proof.
  destruct (try_body_raises world self (entry_state world environ))
    as (raised & st1 & Hbody).
  destruct (steady_try_body _ _ _ _ _ Hbody) as [Ht (tr & Htr & Hq)].
  eexists _, _, (tr ++ respond_events raised)%list.
  split; [exact (handle_run _ _ _ _ _ Hbody)|]. simpl st_trace.
  split; [by rewrite Htr, <- !app_assoc|]. split.
  - apply Forall_app. split.
    + eapply Forall_impl; [exact Hq|].
      intros [] Hquiet Hsk; exact Hquiet || exact Hsk.
    + destruct raised; repeat constructor; intros Hsk; exact Hsk.
  - exact Ht.
Qed.

(** ** Validation *)

Section Validation.

Variable world : World.
Variable self : WsgiEdge.

Lemma rejected_response (environ : Environ) (res : WSGIResponse) :
  _validate_request world self environ = inl (RaiseResponse res) ->
  wire_response (handle world self environ) =
  Some (mkWire (status res) (headers res) (data res)).
Proof.
  intros H.
  exact (wire_response_handle _ _ _ _ _ (try_body_rejected _ _ _ _ H)).
Qed.

(** C4: validation decides in this order.  (1) A URI pattern is configured
    and the path does not match it: 404 Not Found.  Otherwise, for the
    request method [m]: (2) [m] upper-cased is not POST: 405 Method Not
    Allowed with the header [Allow: POST]; (3) it is POST and a content
    type other than "message/rfc822" is given: 415 Unsupported Media Type;
    (4) it is POST and the content type is absent or "message/rfc822":
    the request is valid.  The empty pattern matches every path, as it
    does for any regular-expression engine. *)
Theorem validation_decides (environ : Environ) :
  (forall path, re_match world "" path = true) ->
  let configured := uri_pattern self <> PatternNone in
  let matches :=
    re_match world (pattern_src (uri_pattern self))
             (environ_get environ "PATH_INFO" "") = true in
  (configured /\ ~ matches ->
   wire_response (handle world self environ)
   = Some (mkWire "404 Not Found" [] []))
  /\ (forall m,
        ~ (configured /\ ~ matches) ->
        vars environ !! "REQUEST_METHOD" = Some m ->
        Py.upper m <> "POST" ->
        wire_response (handle world self environ)
        = Some (mkWire "405 Method Not Allowed" [("Allow", HStr "POST")] []))
  /\ (forall m ctype,
        ~ (configured /\ ~ matches) ->
        vars environ !! "REQUEST_METHOD" = Some m ->
        Py.upper m = "POST" ->
        vars environ !! "CONTENT_TYPE" = Some ctype ->
        ctype <> "message/rfc822" ->
        wire_response (handle world self environ)
        = Some (mkWire "415 Unsupported Media Type" [] []))
  /\ (forall m,
        ~ (configured /\ ~ matches) ->
        vars environ !! "REQUEST_METHOD" = Some m ->
        Py.upper m = "POST" ->
        vars environ !! "CONTENT_TYPE" = None
        \/ vars environ !! "CONTENT_TYPE" = Some "message/rfc822" ->
        _validate_request world self environ = inr tt).
Proof.
  intros Hempty configured matches.
  assert (Hguard :
            pattern_truthy (uri_pattern self)
            && negb (re_match world (pattern_src (uri_pattern self))
                              (environ_get environ "PATH_INFO" "")) = true
            <-> configured /\ ~ matches).
  { subst configured matches. rewrite andb_true_iff, negb_true_iff.
    destruct (uri_pattern self) as [|src|src]; simpl.
    - intuition congruence.
    - destruct (String.eqb_spec src "") as [->|Hne]; simpl.
      + rewrite Hempty. intuition congruence.
      + destruct (re_match world src _); intuition congruence.
    - destruct (re_match world src _); intuition congruence. }
  repeat split.
  - intros H. apply Hguard in H.
    apply rejected_response with
      (res := WSGIResponse_new "404 Not Found" None).
    unfold _validate_request. by rewrite H.
  - intros m H Hm Hneq.
    apply rejected_response with
      (res := WSGIResponse_new "405 Method Not Allowed"
                               (Some [("Allow", HStr "POST")])).
    unfold _validate_request.
    destruct (_ && _); [by destruct H; apply Hguard|].
    rewrite Hm. by apply String.eqb_neq in Hneq as ->.
  - intros m ctype H Hm Heq Hc Hneq.
    apply rejected_response with
      (res := WSGIResponse_new "415 Unsupported Media Type" None).
    unfold _validate_request.
    destruct (_ && _); [by destruct H; apply Hguard|].
    rewrite Hm, Heq. simpl. unfold environ_get. rewrite Hc. simpl.
    by apply String.eqb_neq in Hneq as ->.
  - intros m H Hm Heq Hc.
    unfold _validate_request.
    destruct (_ && _); [by destruct H; apply Hguard|].
    rewrite Hm, Heq. simpl. unfold environ_get.
    by destruct Hc as [-> | ->].
Qed.

End Validation.

(** ** Envelope construction *)



Lemma decode_all_Forall2 (segments rcpts : list string) :
  decode_all segments = inr rcpts ->
  Forall2 (fun seg rcpt => Base64.b64decode seg = inr rcpt) segments rcpts.
Proof.
  revert rcpts. induction segments as [|seg rest IH]; intros rcpts; simpl.
  - intros [= <-]. constructor.
  - destruct (Base64.b64decode seg) as [e|rcpt] eqn:E; [done|].
    destruct (decode_all rest) as [e|rs]; [done|].
    intros [= <-]. constructor; [done|]. by apply IH.
Qed.

Section Construction.

Variable world : World.
Variable self : WsgiEdge.



(** C6: the recipient header "QUJD, REVG" is split at the comma, with the
    whitespace around it, into "QUJD" and "REVG"; the segments decode to
    "ABC" and "DEF", and the recipients are exactly ["ABC"; "DEF"], in
    the order of the header. *)
Theorem recipients_round_trip (environ : Environ) :
  vars environ !! rcpt_header self = Some "QUJD, REVG" ->
  Re.split "QUJD, REVG" = ["QUJD"; "REVG"]
  /\ Base64.b64decode "QUJD" = inr "ABC"
  /\ Base64.b64decode "REVG" = inr "DEF"
  /\ _get_recipients self environ = inr ["ABC"; "DEF"].
Proof.
  intros H. unfold _get_recipients. rewrite H. by vm_compute.
Qed.


End Construction.

(** ** Faults *)

Section Faults.

Variable world : World.
Variable self : WsgiEdge.

(** C8, as the code has it: whenever the [try] body raises an exception
    that is not a [WSGIResponse], the response has status 500 Internal
    Server Error, the headers [Content-Length] and [Content-Type:
    text/plain], and one body chunk: the text of the exception followed
    by a newline, whose length the [Content-Length] header gives.  The
    exception is logged before the response is started. *)
Theorem fault_response (environ : Environ) (exc : Py.Exc) (st : State) :
  try_body world self (entry_state world environ) = (inl (RaiseExc exc), st) ->
  wire_response (handle world self environ) =
  Some (mkWire "500 Internal Server Error"
               [("Content-Length",
                 HInt (Py.len (Py.str exc ++ String Py.newline "")));
                ("Content-Type", HStr "text/plain")]
               [Py.str exc ++ String Py.newline ""])
  /\ exists before after,
       st_trace (snd (handle world self environ)) =
       (before
        ++ LogException exc
           :: StartResponse "500 Internal Server Error"
                [("Content-Length",
                  HInt (Py.len (Py.str exc ++ String Py.newline "")));
                 ("Content-Type", HStr "text/plain")]
           :: after)%list.
Proof.
  intros Hbody. split.
  - exact (wire_response_handle _ _ _ _ _ Hbody).
  - rewrite (handle_run _ _ _ _ _ Hbody). simpl. eauto.
Qed.


End Faults.

(** ** The statements at sample requests *)

Lemma queue_failure_response_witness :
  _validate_request Sample.world (Sample.edge Sample.queue_failed) Sample.post
  = inr tt
  /\ wire_response (Sample.run Sample.queue_failed Sample.post) =
     Some (mkWire "500 Internal Server Error"
                  [("X-Smtp-Reply",
                    HStr ("550; message="
                          ++ String Py.dquote
                               ("5.6.0 Error queuing message"
                                ++ String Py.dquote "")))]
                  []).
Proof.
  split; [reflexivity|].
  eapply (queue_failure_response Sample.world
            (Sample.edge Sample.queue_failed) Sample.post);
    vm_compute; reflexivity.
Defined.

(** C1 as stated fails: a valid request whose first outcome is a
    [QueueError] is not answered with 503 Service Unavailable, and the
    message of its reply header is not "Error queuing message". *)
Lemma queue_failure_not_503 :
  _validate_request Sample.world (Sample.edge Sample.queue_failed) Sample.post
  = inr tt
  /\ (forall env,
        handoff (Sample.edge Sample.queue_failed) env
        = inr (("ABC", QueueFailure "disk full") :: [("DEF", Accepted "1")]))
  /\ ~ (exists w,
          wire_response (Sample.run Sample.queue_failed Sample.post) = Some w
          /\ statusLine w = "503 Service Unavailable")
  /\ ~ (exists w,
          wire_response (Sample.run Sample.queue_failed Sample.post) = Some w
          /\ wireHeaders w =
             diagnostic (mkReply "550" "Error queuing message")).
Proof.
  split; [reflexivity|]. split; [reflexivity|].
  split; intros (w & Hw & Hs); vm_compute in Hw; injection Hw as <-;
    vm_compute in Hs; discriminate.
Qed.

Lemma relay_failure_response_witness :
  exists w,
    wire_response (Sample.run Sample.relay_deferred Sample.post) = Some w
    /\ statusLine w = "503 Service Unavailable"
    /\ wireHeaders w =
       [("X-Smtp-Reply",
         HStr ("450; message="
               ++ String Py.dquote
                    ("4.0.0 Try again later" ++ String Py.dquote "")))].
Proof.
  destruct (relay_failure_response Sample.world
              (Sample.edge Sample.relay_deferred) Sample.post
              (set_parsed (mkParsed [] "hello")
                          (Envelope_new "test" ["ABC"; "DEF"]))
              (snd (_get_envelope Sample.world
                      (Sample.edge Sample.relay_deferred)
                      (entry_state Sample.world Sample.post)))
              "ABC" (mkReply "450" "4.0.0 Try again later")
              [("DEF", Accepted "1")])
    as (w & Hw & Hh & _ & _ & _ & H4 & _).
  - reflexivity.
  - vm_compute. reflexivity.
  - vm_compute. reflexivity.
  - exists w. split; [exact Hw|]. split; [apply H4; reflexivity|exact Hh].
Defined.

Lemma empty_results_fault_witness :
  wire_response (Sample.run [] Sample.post) =
  Some (mkWire "500 Internal Server Error"
               [("Content-Length", HInt 24);
                ("Content-Type", HStr "text/plain")]
               ["list index out of range" ++ String Py.newline ""]).
Proof.
  eapply proj1.
  eapply (empty_results_fault Sample.world (Sample.edge []) Sample.post);
    vm_compute; reflexivity.
Defined.

Lemma first_result_decides_witness :
  wire_response
    (handle Sample.world
       (with_handoff (Sample.queue_returns Sample.relay_deferred)
                     (Sample.edge []))
       Sample.post)
  = wire_response
      (handle Sample.world
         (with_handoff
            (Sample.queue_returns
               [("ABC", RelayFailure (mkReply "450" "4.0.0 Try again later"));
                ("DEF", QueueFailure "disk full");
                ("GHI", Accepted "2")])
            (Sample.edge []))
         Sample.post).
Proof.
  apply (first_result_decides Sample.world (Sample.edge [])).
  intros env. eexists _, _, _. split; reflexivity.
Defined.

Lemma validation_decides_witness :
  wire_response (handle Sample.world (Sample.edge_at_mail []) Sample.post)
  = Some (mkWire "404 Not Found" [] [])
  /\ wire_response (handle Sample.world (Sample.edge []) Sample.get)
     = Some (mkWire "405 Method Not Allowed" [("Allow", HStr "POST")] [])
  /\ wire_response (handle Sample.world (Sample.edge []) Sample.post_html)
     = Some (mkWire "415 Unsupported Media Type" [] [])
  /\ _validate_request Sample.world (Sample.edge []) Sample.post_bare = inr tt.
Proof.
  assert (Hempty : forall path, re_match Sample.world "" path = true).
  { intros path. by destruct path. }
  split; [|split; [|split]].
  - apply (validation_decides Sample.world (Sample.edge_at_mail [])
             Sample.post Hempty).
    split; [discriminate | by vm_compute].
  - apply (proj1 (proj2 (validation_decides Sample.world (Sample.edge [])
                           Sample.get Hempty)) "get").
    + by intros [H _].
    + reflexivity.
    + by vm_compute.
  - apply (proj1 (proj2 (proj2 (validation_decides Sample.world
                                  (Sample.edge []) Sample.post_html Hempty)))
             "post" "text/html").
    + by intros [H _].
    + reflexivity.
    + reflexivity.
    + reflexivity.
    + discriminate.
  - apply (proj2 (proj2 (proj2 (validation_decides Sample.world
                                  (Sample.edge []) Sample.post_bare Hempty)))
             "POST").
    + by intros [H _].
    + reflexivity.
    + reflexivity.
    + by left.
Defined.

Lemma recipients_round_trip_witness :
  vars Sample.post !! rcpt_header (Sample.edge []) = Some "QUJD, REVG"
  /\ _get_recipients (Sample.edge []) Sample.post = inr ["ABC"; "DEF"].
Proof.
  assert (H : vars Sample.post !! rcpt_header (Sample.edge [])
              = Some "QUJD, REVG") by reflexivity.
  split; [exact H|].
  apply (recipients_round_trip (Sample.edge []) Sample.post H).
Defined.


Lemma fault_response_witness :
  wire_response (Sample.run [] Sample.post_bad_sender) =
  Some (mkWire "500 Internal Server Error"
               [("Content-Length", HInt 18);
                ("Content-Type", HStr "text/plain")]
               ["Incorrect padding" ++ String Py.newline ""]).
Proof.
  eapply proj1.
  apply (fault_response Sample.world (Sample.edge []) Sample.post_bad_sender
           (Py.TypeError "Incorrect padding")
           (entry_state Sample.world Sample.post_bad_sender)).
  reflexivity.
Defined.

(** C8 as stated fails: the body of the fault response is not the text of
    the exception itself; it is longer by the newline that ends it. *)
Lemma fault_body_not_description :
  try_body Sample.world (Sample.edge [])
           (entry_state Sample.world Sample.post_bad_sender)
  = (inl (RaiseExc (Py.TypeError "Incorrect padding")),
     entry_state Sample.world Sample.post_bad_sender)
  /\ ~ (exists w,
          wire_response (Sample.run [] Sample.post_bad_sender) = Some w
          /\ wireBody w = [Py.str (Py.TypeError "Incorrect padding")]).
Proof.
  split; [reflexivity|].
  intros (w & Hw & Hb). vm_compute in Hw. injection Hw as <-.
  vm_compute in Hb. discriminate.
Qed.

